(** * directus-auth-manager: the credential store (config.ts), the
    validator (validator.ts), the library entry points (lib.ts) and the
    interactive CLI, shallowly embedded.  The answers a user gives to the
    prompts are inputs of the functions that ask them.

    JavaScript values are modelled by [jsv]; a thrown value by [thrown];
    code that may throw runs in the exception monad [Exc].  A plain JS
    object used as a map ([Record<string, Credentials>]) is an association
    list of its own properties in [Object.keys] order; property reads fall
    back to the members of [Object.prototype], as they do in JavaScript. *)

From Stdlib Require Import String Ascii List ZArith Bool Permutation Lia.
Import ListNotations.
Open Scope string_scope.
Set Warnings "-register-all".

(* ------------------------------------------------------------------ *)
(** ** JavaScript values, errors and the exception monad *)

Module JS.

(** JSON-representable values plus [undefined] and the built-in functions
    read off a prototype (numbers are kept integral: no claim reads one). *)
Inductive jsv : Type :=
| JUndefined
| JNull
| JBool (b : bool)
| JNum (n : Z)
| JStr (s : string)
| JArr (xs : list jsv)
| JObj (kvs : list (string * jsv))
| JBuiltin (member : string).

(** A thrown value: an [Error] instance (name and message) or anything else. *)
Inductive thrown : Type :=
| ErrorObj (ename : string) (message : string)
| NonError (v : jsv).

Inductive Exc (A : Type) : Type :=
| Ok (a : A)
| Throw (e : thrown).
Arguments Ok {A} a.
Arguments Throw {A} e.

Definition bind {A B : Type} (m : Exc A) (k : A -> Exc B) : Exc B :=
  match m with
  | Ok a => k a
  | Throw e => Throw e
  end.

Notation "x <- m ;; k" := (bind m (fun x => k))
  (at level 61, m at next level, right associativity).

(** [try { m } catch (e) { h(e) }] *)
Definition try_catch {A : Type} (m : Exc A) (h : thrown -> Exc A) : Exc A :=
  match m with
  | Ok a => Ok a
  | Throw e => h e
  end.

(** The own-or-inherited members of [Object.prototype]. *)
Definition object_prototype_members : list string :=
  [ "constructor"; "__defineGetter__"; "__defineSetter__"; "hasOwnProperty";
    "__lookupGetter__"; "__lookupSetter__"; "isPrototypeOf";
    "propertyIsEnumerable"; "toString"; "valueOf"; "__proto__";
    "toLocaleString" ].

Definition is_proto_member (k : string) : bool :=
  existsb (String.eqb k) object_prototype_members.

Fixpoint own_lookup {A : Type} (k : string) (o : list (string * A)) : option A :=
  match o with
  | [] => None
  | (k', v) :: o' => if String.eqb k k' then Some v else own_lookup k o'
  end.

(** [v[p]] on a parsed JSON value.  Reading a property of [undefined] or
    [null] throws a [TypeError]; an object answers with its own property,
    else the [Object.prototype] member, else [undefined].  Primitives and
    arrays are read through their wrapper prototypes; the property names
    read by the validator (data, id, email, first_name, last_name) are
    members of none of them. *)
Definition get_field (v : jsv) (p : string) : Exc jsv :=
  match v with
  | JUndefined =>
      Throw (ErrorObj "TypeError"
               ("Cannot read properties of undefined (reading '" ++ p ++ "')"))
  | JNull =>
      Throw (ErrorObj "TypeError"
               ("Cannot read properties of null (reading '" ++ p ++ "')"))
  | JObj kvs =>
      match own_lookup p kvs with
      | Some x => Ok x
      | None => Ok (if is_proto_member p then JBuiltin p else JUndefined)
      end
  | _ => Ok (if is_proto_member p then JBuiltin p else JUndefined)
  end.

(** [s.includes(sub)] *)
Fixpoint starts_with (sub s : string) : bool :=
  match sub, s with
  | EmptyString, _ => true
  | String c sub', String d s' => Ascii.eqb c d && starts_with sub' s'
  | String _ _, EmptyString => false
  end.

Fixpoint includes (s sub : string) : bool :=
  starts_with sub s ||
  match s with
  | EmptyString => false
  | String _ s' => includes s' sub
  end.

(** Decimal rendering of a number in a template literal. *)
Fixpoint digits (fuel : nat) (n : N) (acc : string) : string :=
  match fuel with
  | O => acc
  | S f =>
      let acc' := String (ascii_of_N (48 + N.modulo n 10)) acc in
      let q := N.div n 10 in
      if (q =? 0)%N then acc' else digits f q acc'
  end.

Definition string_of_N (n : N) : string := digits (S (N.size_nat n)) n "".

Definition string_of_Z (z : Z) : string :=
  if (z <? 0)%Z then "-" ++ string_of_N (Z.abs_N z) else string_of_N (Z.to_N z).

End JS.

Import JS.

(* ------------------------------------------------------------------ *)
(** ** The credential store (config.ts) *)

Module Store.

(** [interface Credentials { url: string; token: string }] *)
Record Credentials : Type := mkCredentials { url : string; token : string }.

(** [interface Config { active: string | null;
                         credentials: Record<string, Credentials> }].
    [credentials] lists the own properties of the object in [Object.keys]
    order: insertion order (JavaScript enumerates array-index keys first;
    no statement below depends on which remaining key comes first). *)
Record Config : Type := mkConfig {
  active : option string;
  credentials : list (string * Credentials)
}.

(** [getDefaultConfig()] *)
Definition getDefaultConfig : Config := {| active := None; credentials := [] |}.

(** The value of [config.credentials[name]]: an own property, a member
    inherited from [Object.prototype] (a function, or the prototype object
    itself for [__proto__]), or [undefined]. *)
Inductive PropValue : Type :=
| Own (c : Credentials)
| Inherited (member : string)
| Undefined.

Definition get_prop (o : list (string * Credentials)) (k : string) : PropValue :=
  match own_lookup k o with
  | Some c => Own c
  | None => if is_proto_member k then Inherited k else Undefined
  end.

(** JavaScript truthiness of such a value: objects and functions are truthy. *)
Definition truthy (p : PropValue) : bool :=
  match p with
  | Undefined => false
  | _ => true
  end.

(** Define or overwrite an own data property, keeping its position. *)
Fixpoint put_own (k : string) (v : Credentials) (o : list (string * Credentials))
  : list (string * Credentials) :=
  match o with
  | [] => [(k, v)]
  | (k', v') :: o' => if String.eqb k k' then (k, v) :: o' else (k', v') :: put_own k v o'
  end.

(** [o[k] = v].  Without an own [__proto__] property the assignment runs the
    inherited [__proto__] setter, which replaces the object's prototype and
    adds no own property: [Object.keys] and [JSON.stringify] do not see it. *)
Definition set_prop (o : list (string * Credentials)) (k : string) (v : Credentials)
  : list (string * Credentials) :=
  match own_lookup k o with
  | Some _ => put_own k v o
  | None => if String.eqb k "__proto__" then o else put_own k v o
  end.

(** [delete o[k]]: removes the own property; a no-op when there is none. *)
Definition delete_prop (k : string) (o : list (string * Credentials))
  : list (string * Credentials) :=
  filter (fun kv => negb (String.eqb k (fst kv))) o.

(** [Object.keys(o)] *)
Definition object_keys (o : list (string * Credentials)) : list string := map fst o.

(** Each operation reads the document, changes it and writes it back; a
    function below takes the document [readConfig()] returned and gives the
    document [writeConfig] stores (the same one when nothing is written). *)

(** [addCredentials(name, credentials)] *)
Definition addCredentials (name : string) (creds : Credentials) (config : Config) : Config :=
  let cs := set_prop (credentials config) name creds in
  let act := if Nat.eqb (length (object_keys cs)) 1 then Some name else active config in
  {| active := act; credentials := cs |}.

(** [config.active === name] *)
Definition active_is (config : Config) (name : string) : bool :=
  match active config with
  | Some a => String.eqb a name
  | None => false
  end.

(** [removeCredentials(name)] *)
Definition removeCredentials (name : string) (config : Config) : Config * bool :=
  if negb (truthy (get_prop (credentials config) name)) then (config, false)
  else
    let cs := delete_prop name (credentials config) in
    let act :=
      if active_is config name then
        match object_keys cs with
        | [] => None
        | k :: _ => Some k
        end
      else active config in
    ({| active := act; credentials := cs |}, true).

(** [setActive(name)] *)
Definition setActive (name : string) (config : Config) : Config * bool :=
  if negb (truthy (get_prop (credentials config) name)) then (config, false)
  else ({| active := Some name; credentials := credentials config |}, true).

(** [getActiveCredentials()]: [!config.active] also holds for [""]. *)
Definition getActiveCredentials (config : Config) : option (string * PropValue) :=
  match active config with
  | None => None
  | Some a =>
      if String.eqb a "" then None
      else
        match get_prop (credentials config) a with
        | Undefined => None
        | p => Some (a, p)
        end
  end.

(** The mutating calls, run one after the other on the stored document. *)
Inductive Op : Type :=
| Add (name : string) (creds : Credentials)
| Remove (name : string)
| SetActive (name : string).

Definition step (config : Config) (op : Op) : Config :=
  match op with
  | Add n c => addCredentials n c config
  | Remove n => fst (removeCredentials n config)
  | SetActive n => fst (setActive n config)
  end.

Definition run (config : Config) (ops : list Op) : Config := fold_left step ops config.

(** The invariant of the document: [active] is null or one of the keys. *)
Definition active_ok (config : Config) : Prop :=
  match active config with
  | None => True
  | Some a => In a (object_keys (credentials config))
  end.

End Store.

Import Store.

(* ------------------------------------------------------------------ *)
(** ** The config file (config.ts: readConfig, writeConfig) *)

Module ConfigFile.

(** What the config file holds: nothing, text [JSON.parse] accepts (kept as
    the parsed value), text it rejects (kept as the [SyntaxError] message),
    or a file [readFileSync] fails on. *)
Inductive FileContent : Type :=
| NoFile
| FileJson (v : jsv)
| FileNotJson (syntax_error : string)
| FileUnreadable (err : thrown).

(** The part of the file system the store touches: whether [CONFIG_DIR]
    exists, the error [mkdirSync] raises when it cannot create it, and the
    content of [CONFIG_FILE]. *)
Record FS : Type := mkFS {
  dir_exists : bool;
  mkdir_error : option thrown;
  config_file : FileContent
}.

(** [ensureConfigDir()] *)
Definition ensureConfigDir (fs : FS) : Exc FS :=
  if dir_exists fs then Ok fs
  else
    match mkdir_error fs with
    | Some e => Throw e
    | None => Ok {| dir_exists := true; mkdir_error := None; config_file := config_file fs |}
    end.

(** [getDefaultConfig()] as the JavaScript value. *)
Definition default_config_json : jsv := JObj [("active", JNull); ("credentials", JObj [])].

(** [readFileSync(CONFIG_FILE, 'utf-8')] followed by [JSON.parse(content)]. *)
Definition read_and_parse (c : FileContent) : Exc jsv :=
  match c with
  | NoFile => Throw (ErrorObj "Error" "ENOENT: no such file or directory")
  | FileJson v => Ok v
  | FileNotJson msg => Throw (ErrorObj "SyntaxError" msg)
  | FileUnreadable e => Throw e
  end.

(** [readConfig()]; [JSON.parse(content) as Config] is a type cast only. *)
Definition readConfig (fs : FS) : Exc (FS * jsv) :=
  fs' <- ensureConfigDir fs ;;
  match config_file fs' with
  | NoFile => Ok (fs', default_config_json)
  | c => try_catch (v <- read_and_parse c ;; Ok (fs', v))
                   (fun _ => Ok (fs', default_config_json))
  end.

Definition credentials_to_json (c : Credentials) : jsv :=
  JObj [("url", JStr (url c)); ("token", JStr (token c))].

(** [JSON.stringify(config)] read back by [JSON.parse]. *)
Definition config_to_json (config : Config) : jsv :=
  JObj [("active", match active config with Some a => JStr a | None => JNull end);
        ("credentials",
          JObj (map (fun kv => (fst kv, credentials_to_json (snd kv))) (credentials config)))].

(** [writeConfig(config)] *)
Definition writeConfig (fs : FS) (config : Config) : Exc FS :=
  fs' <- ensureConfigDir fs ;;
  Ok {| dir_exists := dir_exists fs'; mkdir_error := mkdir_error fs';
        config_file := FileJson (config_to_json config) |}.

(** The expected structure of the document: an object whose [active] is null
    or a string and whose [credentials] maps names to [{url, token}]. *)
Definition decode_credentials (v : jsv) : option Credentials :=
  match v with
  | JObj kvs =>
      match own_lookup "url" kvs, own_lookup "token" kvs with
      | Some (JStr u), Some (JStr t) => Some (mkCredentials u t)
      | _, _ => None
      end
  | _ => None
  end.

Fixpoint decode_entries (kvs : list (string * jsv)) : option (list (string * Credentials)) :=
  match kvs with
  | [] => Some []
  | (k, v) :: rest =>
      match decode_credentials v, decode_entries rest with
      | Some c, Some cs => Some ((k, c) :: cs)
      | _, _ => None
      end
  end.

Definition decode_config (v : jsv) : option Config :=
  match v with
  | JObj kvs =>
      let act := match own_lookup "active" kvs with
                 | Some JNull => Some None
                 | Some (JStr a) => Some (Some a)
                 | _ => None
                 end in
      let cs := match own_lookup "credentials" kvs with
                | Some (JObj entries) => decode_entries entries
                | _ => None
                end in
      match act, cs with
      | Some a, Some c => Some {| active := a; credentials := c |}
      | _, _ => None
      end
  | _ => None
  end.

End ConfigFile.

Import ConfigFile.

(* ------------------------------------------------------------------ *)
(** ** The validator (validator.ts) *)

Module Validator.

(** The request [fetch] receives. *)
Record Request : Type := mkRequest {
  req_method : string;
  req_url : string;
  req_authorization : string;
  req_content_type : string
}.

(** A response body: text [response.json()] parses (kept as the value), or
    text it rejects (kept as the [SyntaxError] message). *)
Inductive Body : Type :=
| BodyJson (v : jsv)
| BodyNotJson (syntax_error : string).

Record Response : Type := mkResponse { status : Z; body : Body }.

(** [response.ok] *)
Definition response_ok (r : Response) : bool := (200 <=? status r)%Z && (status r <=? 299)%Z.

(** [await response.json()] *)
Definition response_json (r : Response) : Exc jsv :=
  match body r with
  | BodyJson v => Ok v
  | BodyNotJson msg => Throw (ErrorObj "SyntaxError" msg)
  end.

(** [ValidationResult['user']]: the fields as read, [undefined] when absent. *)
Record User : Type := mkUser { id : jsv; email : jsv; first_name : jsv; last_name : jsv }.

(** [interface ValidationResult] *)
Record ValidationResult : Type := mkValidationResult {
  vr_name : string;
  success : bool;
  message : string;
  user : option User
}.

Fixpoint drop_slashes (cs : list ascii) : list ascii :=
  match cs with
  | c :: cs' => if Ascii.eqb c "/"%char then drop_slashes cs' else cs
  | [] => []
  end.

(** [url.replace(/\/+$/, '')] *)
Definition strip_trailing_slashes (s : string) : string :=
  string_of_list_ascii (rev (drop_slashes (rev (list_ascii_of_string s)))).

(** The message for a response that is not [ok]. *)
Definition status_message (status : Z) : string :=
  if (status =? 401)%Z then "Unauthorized - Invalid or expired token"
  else if (status =? 403)%Z then "Forbidden - Token lacks required permissions"
  else if (status =? 404)%Z then "Not found - Check if the URL is correct"
  else "HTTP " ++ string_of_Z status.

(** The message the [catch] block computes from the thrown value. *)
Definition error_message (error : thrown) : string :=
  match error with
  | ErrorObj _ msg =>
      if includes msg "ECONNREFUSED" then "Connection refused - Server may be down"
      else if includes msg "ENOTFOUND" then "Host not found - Check the URL"
      else if includes msg "ETIMEDOUT" then "Connection timed out"
      else if includes msg "certificate" then "SSL certificate error"
      else msg
  | NonError _ => "Unknown error"
  end.

(** The request [validateCredentials] issues for a credential set. *)
Definition request_for (credentials : Credentials) : Request :=
  let baseUrl := strip_trailing_slashes (url credentials) in
  {| req_method := "GET";
     req_url := baseUrl ++ "/users/me";
     req_authorization := "Bearer " ++ token credentials;
     req_content_type := "application/json" |}.

(** [validateCredentials(name, credentials)]; [fetch] is the network: it
    answers the request with a response or rejects with a thrown value. *)
Definition validateCredentials (fetch : Request -> Exc Response)
    (name : string) (credentials : Credentials) : Exc ValidationResult :=
  try_catch
    (response <- fetch (request_for credentials) ;;
     if negb (response_ok response) then
       Ok {| vr_name := name; success := false;
             message := status_message (status response); user := None |}
     else
       data <- response_json response ;;
       u <- get_field data "data" ;;
       i <- get_field u "id" ;;
       e <- get_field u "email" ;;
       f <- get_field u "first_name" ;;
       l <- get_field u "last_name" ;;
       Ok {| vr_name := name; success := true; message := "Valid";
             user := Some {| id := i; email := e; first_name := f; last_name := l |} |})
    (fun error =>
       Ok {| vr_name := name; success := false; message := error_message error; user := None |}).

(** [Promise.all]: [order] lists the indices of the promises in the order
    they settle; a settled value goes to the slot of its index.  The first
    rejection rejects the whole; [None] while some promise is pending. *)
Fixpoint set_nth {A : Type} (l : list A) (i : nat) (x : A) : list A :=
  match l, i with
  | [], _ => []
  | _ :: t, O => x :: t
  | h :: t, S j => h :: set_nth t j x
  end.

Fixpoint settle {A : Type} (ps : list (Exc A)) (order : list nat) (slots : list (option A))
  : Exc (list (option A)) :=
  match order with
  | [] => Ok slots
  | i :: rest =>
      match nth_error ps i with
      | Some (Throw e) => Throw e
      | Some (Ok a) => settle ps rest (set_nth slots i (Some a))
      | None => settle ps rest slots
      end
  end.

Fixpoint all_some {A : Type} (l : list (option A)) : option (list A) :=
  match l with
  | [] => Some []
  | Some x :: t => match all_some t with Some xs => Some (x :: xs) | None => None end
  | None :: _ => None
  end.

Definition promise_all {A : Type} (ps : list (Exc A)) (order : list nat) : option (Exc (list A)) :=
  match settle ps order (repeat None (length ps)) with
  | Throw e => Some (Throw e)
  | Ok slots =>
      match all_some slots with
      | Some xs => Some (Ok xs)
      | None => None
      end
  end.

(** [validateAllCredentials(credentialsMap)]; the map is given by its
    [Object.entries]. *)
Definition validateAllCredentials (fetch : Request -> Exc Response)
    (credentialsMap : list (string * Credentials)) (order : list nat)
  : option (Exc (list ValidationResult)) :=
  let entries := credentialsMap in
  promise_all (map (fun '(name, creds) => validateCredentials fetch name creds) entries) order.

(** The body has the nested [data] object the validator expects. *)
Definition has_data_object (v : jsv) : bool :=
  match v with
  | JObj kvs => match own_lookup "data" kvs with Some (JObj _) => true | _ => false end
  | _ => false
  end.

End Validator.

Import Validator.

(* ------------------------------------------------------------------ *)
(** ** The read projections of the store (config.ts) *)

Module StoreReaders.

(** [getAllCredentials()] *)
Definition getAllCredentials (config : Config) : list (string * Credentials) :=
  credentials config.

(** [getActiveName()] *)
Definition getActiveName (config : Config) : option string := active config.

(** [hasCredentials(name)]: [name in config.credentials] also sees the
    members of [Object.prototype]. *)
Definition hasCredentials (name : string) (config : Config) : bool :=
  match own_lookup name (credentials config) with
  | Some _ => true
  | None => is_proto_member name
  end.

(** [p.url], [p.token] on a value read from [config.credentials]: neither
    the functions of [Object.prototype] nor the prototype itself has such a
    property; [undefined] has none to read. *)
Definition prop_field (p : PropValue) (field : string) : Exc jsv :=
  match p with
  | Own c =>
      Ok (if String.eqb field "url" then JStr (url c)
          else if String.eqb field "token" then JStr (token c)
          else if is_proto_member field then JBuiltin field else JUndefined)
  | Inherited _ => Ok JUndefined
  | Undefined =>
      Throw (ErrorObj "TypeError"
               ("Cannot read properties of undefined (reading '" ++ field ++ "')"))
  end.

End StoreReaders.

Import StoreReaders.

(* ------------------------------------------------------------------ *)
(** ** The library entry points (lib.ts) *)

Module Lib.

Inductive Source : Type := Saved | Manual.

(** [interface CredentialSelection] *)
Record CredentialSelection : Type := mkSelection {
  sel_name : string;
  sel_url : jsv;
  sel_token : jsv;
  source : Source
}.

(** [{ name, url: creds.url, token: creds.token, source: 'saved' }] *)
Definition saved_selection (name : string) (p : PropValue) : Exc CredentialSelection :=
  u <- prop_field p "url" ;;
  t <- prop_field p "token" ;;
  Ok {| sel_name := name; sel_url := u; sel_token := t; source := Saved |}.

(** [listSaved()] *)
Definition listSaved (config : Config) : list string := object_keys (getAllCredentials config).

(** [interface PromptOptions]: an absent option is [None]. *)
Record PromptOptions : Type := mkPromptOptions {
  opt_message : option string;
  opt_allowManual : option bool;
  opt_saveManual : option bool;
  opt_useActiveIfAvailable : option bool
}.

(** The answers the user gives to the prompts of [promptManualEntry]; the
    URL and token have passed their [validate] checks.  An answer whose
    prompt is not shown is not read. *)
Record ManualAnswers : Type := mkManualAnswers {
  ans_url : string;
  ans_token : string;
  ans_shouldSave : bool;
  ans_credName : string;
  ans_overwrite : bool
}.

(** A label of a list prompt; [chalk] styling is kept as the text it styles. *)
Inductive Label : Type :=
| LName (name : string)
| LNameActive (name : string)
| LText (text : string).

(** A choice of an [inquirer] list prompt. *)
Inductive Choice : Type :=
| Item (label : Label) (value : string)
| Separator.

(** The values a list prompt can answer with. *)
Definition choice_values (cs : list Choice) : list string :=
  flat_map (fun c => match c with Item _ v => [v] | Separator => [] end) cs.

(** [savedNames.map(name => ({ name: name === activeName ? ... : name, value: name }))] *)
Definition name_choices (names : list string) (activeName : option string) : list Choice :=
  map (fun name =>
         Item (match activeName with
               | Some a => if String.eqb name a then LNameActive name else LName name
               | None => LName name
               end) name) names.

(** [promptManualEntry(save)], with the answers given and the document the
    store reads; it returns the selection and the document afterwards. *)
Definition promptManualEntry (save : bool) (ans : ManualAnswers) (config : Config)
  : CredentialSelection * Config :=
  let creds := mkCredentials (ans_url ans) (ans_token ans) in
  let result name := {| sel_name := name; sel_url := JStr (ans_url ans);
                        sel_token := JStr (ans_token ans); source := Manual |} in
  if save && ans_shouldSave ans then
    let name := ans_credName ans in
    if hasCredentials name config then
      if ans_overwrite ans then (result name, addCredentials name creds config)
      else (result name, config)
    else (result name, addCredentials name creds config)
  else (result "manual", config).

Definition dquote : string := String (ascii_of_nat 34) EmptyString.

(** The choices [promptForCredentials] offers. *)
Definition prompt_choices (config : Config) (allowManual : bool) : list Choice :=
  name_choices (object_keys (getAllCredentials config)) (getActiveName config) ++
  (if allowManual then [Separator; Item (LText "Enter credentials manually...") "__manual__"]
   else []).

(** [promptForCredentials(options)]; [selected] is the value the user picks
    in the list prompt, [ans] the answers of a manual entry. *)
Definition promptForCredentials (options : PromptOptions) (config : Config)
    (selected : string) (ans : ManualAnswers) : Exc (CredentialSelection * Config) :=
  let allowManual := match opt_allowManual options with Some b => b | None => true end in
  let saveManual := match opt_saveManual options with Some b => b | None => true end in
  let useActiveIfAvailable :=
    match opt_useActiveIfAvailable options with Some b => b | None => false end in
  let fallback :=
    let savedCreds := getAllCredentials config in
    let savedNames := object_keys savedCreds in
    if Nat.eqb (length savedNames) 0 && allowManual then
      Ok (promptManualEntry saveManual ans config)
    else if Nat.eqb (length savedNames) 0 then
      Throw (ErrorObj "Error" ("No saved credentials available. Run " ++ dquote ++
                               "directus-auth" ++ dquote ++ " to add credentials."))
    else if String.eqb selected "__manual__" then
      Ok (promptManualEntry saveManual ans config)
    else
      s <- saved_selection selected (get_prop savedCreds selected) ;;
      Ok (s, config) in
  if useActiveIfAvailable then
    match getActiveCredentials config with
    | Some (n, p) => s <- saved_selection n p ;; Ok (s, config)
    | None => fallback
    end
  else fallback.

End Lib.

Import Lib.

(* ------------------------------------------------------------------ *)
(** ** The interactive CLI (the entry script) *)

Module Cli.

(** [maskToken(token)]; a character of [string] stands for one UTF-16 code
    unit of the JavaScript string. *)
Definition maskToken (token : string) : string :=
  if Nat.leb (String.length token) 12 then "****"
  else substring 0 4 token ++ "..." ++ substring (String.length token - 4) 4 token.

(** The choices [selectCredentials] offers. *)
Definition select_choices (config : Config) : list Choice :=
  name_choices (object_keys (getAllCredentials config)) (getActiveName config) ++
  [Separator; Item (LText "Cancel") "__cancel__"].

(** [selectCredentials(message)]; [selected] is the value picked. *)
Definition selectCredentials (config : Config) (selected : string) : option string :=
  let names := object_keys (getAllCredentials config) in
  if Nat.eqb (length names) 0 then None
  else if String.eqb selected "__cancel__" then None
  else Some selected.

(** [handleRemove()]: pick ([if (!name) return] also leaves on [""]),
    confirm, remove. *)
Definition handleRemove (config : Config) (selected : string) (confirm : bool) : Config :=
  match selectCredentials config selected with
  | None => config
  | Some name =>
      if String.eqb name "" then config
      else if confirm then fst (removeCredentials name config) else config
  end.

(** [handleUse()]: pick, activate. *)
Definition handleUse (config : Config) (selected : string) : Config :=
  match selectCredentials config selected with
  | None => config
  | Some name => if String.eqb name "" then config else fst (setActive name config)
  end.

(** How [handleAdd()] ends: cancelled at the overwrite question, or saved,
    with whether "(set as active)" is printed. *)
Inductive AddOutcome : Type :=
| AddCancelled
| AddSaved (setAsActive : bool).

(** [handleAdd()] with the name entered (the prompt accepts names matching
    [/^[a-zA-Z0-9_-]+$/]), the validated URL and token, and the answer to
    the overwrite question. *)
Definition handleAdd (name : string) (creds : Credentials) (overwrite : bool) (config : Config)
  : Config * AddOutcome :=
  if hasCredentials name config && negb overwrite then (config, AddCancelled)
  else
    let config' := addCredentials name creds config in
    (config', AddSaved (match getActiveName config' with
                        | Some a => String.eqb a name
                        | None => false
                        end)).

End Cli.

Import Cli.

(* ------------------------------------------------------------------ *)
(** ** Checks on small inputs *)

Example string_of_Z_401 : string_of_Z 401 = "401".
Proof. reflexivity. Qed.

Example includes_econnrefused :
  includes "connect ECONNREFUSED 127.0.0.1:8055" "ECONNREFUSED" = true.
Proof. reflexivity. Qed.

Example add_then_remove :
  let c := mkCredentials "https://a.example" "t" in
  run getDefaultConfig [Add "a" c; Add "b" c; Remove "a"]
  = {| active := Some "b"; credentials := [("b", c)] |}.
Proof. reflexivity. Qed.

Example request_strips_slashes :
  req_url (request_for (mkCredentials "https://cms.example.com//" "tok"))
    = "https://cms.example.com/users/me".
Proof. reflexivity. Qed.

Example validate_401 :
  validateCredentials (fun _ => Ok {| status := 401; body := BodyJson JNull |})
    "prod" (mkCredentials "https://cms.example.com" "tok")
  = Ok {| vr_name := "prod"; success := false;
          message := "Unauthorized - Invalid or expired token"; user := None |}.
Proof. reflexivity. Qed.

Example validate_500 :
  validateCredentials (fun _ => Ok {| status := 500; body := BodyJson JNull |})
    "prod" (mkCredentials "https://cms.example.com" "tok")
  = Ok {| vr_name := "prod"; success := false; message := "HTTP 500"; user := None |}.
Proof. reflexivity. Qed.

Example validate_200_identity :
  validateCredentials
    (fun _ => Ok {| status := 200;
                    body := BodyJson (JObj [("data", JObj [("id", JStr "1");
                                                            ("email", JStr "a@b.com")])]) |})
    "prod" (mkCredentials "https://cms.example.com" "tok")
  = Ok {| vr_name := "prod"; success := true; message := "Valid";
          user := Some (mkUser (JStr "1") (JStr "a@b.com") JUndefined JUndefined) |}.
Proof. reflexivity. Qed.

Example readConfig_corrupt :
  readConfig {| dir_exists := true; mkdir_error := None; config_file := FileNotJson "Unexpected token" |}
  = Ok ({| dir_exists := true; mkdir_error := None; config_file := FileNotJson "Unexpected token" |},
        default_config_json).
Proof. reflexivity. Qed.

Example written_config_read_back :
  let c := {| active := Some "a"; credentials := [("a", mkCredentials "https://x" "t")] |} in
  bind (writeConfig {| dir_exists := false; mkdir_error := None; config_file := NoFile |} c)
       readConfig =
  Ok ({| dir_exists := true; mkdir_error := None; config_file := FileJson (config_to_json c) |},
      config_to_json c) /\
  decode_config (config_to_json c) = Some c.
Proof. split; reflexivity. Qed.

(* ------------------------------------------------------------------ *)
(** ** Facts about the object model *)

Module ObjectFacts.

Lemma own_lookup_keys (o : list (string * Credentials)) (k : string) :
  own_lookup k o = None <-> ~ In k (object_keys o).
Proof.
  induction o as [| [k' v] o IH]; simpl.
  - tauto.
  - destruct (String.eqb_spec k k') as [-> | Hne].
    + split; [discriminate | intros H; exfalso; apply H; left; reflexivity].
    + rewrite IH. split; intros H H'; apply H;
        [destruct H' as [-> | H']; [congruence | exact H'] | right; exact H'].
Qed.

Lemma own_lookup_some_keys (o : list (string * Credentials)) (k : string) c :
  own_lookup k o = Some c -> In k (object_keys o).
Proof.
  intros H. destruct (in_dec String.string_dec k (object_keys o)) as [Hin | Hout];
    [exact Hin |].
  apply own_lookup_keys in Hout. congruence.
Qed.

Lemma put_own_lookup (o : list (string * Credentials)) k v :
  own_lookup k (put_own k v o) = Some v.
Proof.
  induction o as [| [k' v'] o IH]; simpl.
  - rewrite String.eqb_refl. reflexivity.
  - destruct (String.eqb_spec k k') as [-> | Hne]; simpl.
    + rewrite String.eqb_refl. reflexivity.
    + apply String.eqb_neq in Hne. rewrite Hne. exact IH.
Qed.

Lemma put_own_keys (o : list (string * Credentials)) k v x :
  In x (object_keys (put_own k v o)) <-> x = k \/ In x (object_keys o).
Proof.
  induction o as [| [k' v'] o IH]; simpl.
  - split; intros [H | []]; auto.
  - destruct (String.eqb_spec k k') as [-> | Hne]; simpl.
    + split; intros [H | H]; subst; auto; destruct H; auto.
    + rewrite IH. tauto.
Qed.

Lemma put_own_length_pos (o : list (string * Credentials)) k v :
  length (object_keys (put_own k v o)) <> 0.
Proof.
  destruct o as [| [k' v'] o]; simpl; [discriminate |].
  destruct (String.eqb k k'); discriminate.
Qed.

Lemma delete_keys (o : list (string * Credentials)) k x :
  In x (object_keys (delete_prop k o)) <-> In x (object_keys o) /\ x <> k.
Proof.
  induction o as [| [k' v'] o IH]; simpl.
  - tauto.
  - destruct (String.eqb_spec k k') as [-> | Hne]; simpl.
    + rewrite IH. split; [intros [H1 H2]; auto |].
      intros [[-> | H1] H2]; [congruence | auto].
    + rewrite IH. split.
      * intros [-> | [H1 H2]]; auto.
      * intros [[-> | H1] H2]; auto.
Qed.

Lemma delete_lookup_same (o : list (string * Credentials)) k :
  own_lookup k (delete_prop k o) = None.
Proof.
  apply own_lookup_keys. rewrite delete_keys. tauto.
Qed.

(** For a name that is no member of [Object.prototype], the truthiness test
    [!config.credentials[name]] is exactly the absence of an own key. *)
Lemma truthy_get_prop_nonproto (o : list (string * Credentials)) k :
  is_proto_member k = false ->
  truthy (get_prop o k) = true <-> In k (object_keys o).
Proof.
  intros Hp. unfold get_prop. destruct (own_lookup k o) eqn:E.
  - split; [intros _; eapply own_lookup_some_keys; eauto | reflexivity].
  - rewrite Hp. simpl. apply own_lookup_keys in E. split; [discriminate | tauto].
Qed.

Lemma truthy_get_prop_own (o : list (string * Credentials)) k :
  In k (object_keys o) -> truthy (get_prop o k) = true.
Proof.
  intros Hin. unfold get_prop. destruct (own_lookup k o) eqn:E; [reflexivity |].
  apply own_lookup_keys in E. contradiction.
Qed.

Lemma set_prop_nonproto (o : list (string * Credentials)) k v :
  k <> "__proto__" -> set_prop o k v = put_own k v o.
Proof.
  intros Hk. unfold set_prop. destruct (own_lookup k o); [reflexivity |].
  apply String.eqb_neq in Hk. rewrite Hk. reflexivity.
Qed.

End ObjectFacts.

Import ObjectFacts.

(* ------------------------------------------------------------------ *)
(** ** The store: what the operations do for ordinary names *)

Module StoreFacts.

Lemma active_ok_default : active_ok getDefaultConfig.
Proof. exact I. Qed.

Lemma active_is_true (config : Config) name :
  active_is config name = true <-> active config = Some name.
Proof.
  unfold active_is. destruct (active config) as [a |]; [| split; discriminate].
  rewrite String.eqb_eq. split; [intros -> | intros H; injection H]; auto.
Qed.

(** [addCredentials] for any name but [__proto__]: the name is bound to the
    credentials; it becomes active exactly when it is the only key. *)
Theorem addCredentials_spec (config : Config) name creds :
  name <> "__proto__" ->
  let config' := addCredentials name creds config in
  own_lookup name (credentials config') = Some creds /\
  (forall k, In k (object_keys (credentials config)) ->
             In k (object_keys (credentials config'))) /\
  (length (object_keys (credentials config')) = 1 -> active config' = Some name) /\
  (length (object_keys (credentials config')) <> 1 -> active config' = active config).
Proof.
  intros Hn. cbn zeta. unfold addCredentials. simpl.
  rewrite set_prop_nonproto by exact Hn.
  split; [apply put_own_lookup |].
  split; [intros k Hk; apply put_own_keys; right; exact Hk |].
  split; intros H.
  - apply Nat.eqb_eq in H. rewrite H. reflexivity.
  - apply Nat.eqb_neq in H. rewrite H. reflexivity.
Qed.

(** [removeCredentials] for a name that is no member of [Object.prototype]. *)
Theorem removeCredentials_spec (config : Config) name :
  is_proto_member name = false ->
  (~ In name (object_keys (credentials config)) ->
     removeCredentials name config = (config, false)) /\
  (In name (object_keys (credentials config)) ->
     let '(config', b) := removeCredentials name config in
     b = true /\
     credentials config' = delete_prop name (credentials config) /\
     (active config = Some name ->
        (object_keys (credentials config') = [] -> active config' = None) /\
        (object_keys (credentials config') <> [] ->
           exists k, active config' = Some k /\ In k (object_keys (credentials config')))) /\
     (active config <> Some name -> active config' = active config)).
Proof.
  intros Hp. split.
  - intros Hout. unfold removeCredentials.
    destruct (truthy (get_prop (credentials config) name)) eqn:E; [| reflexivity].
    apply truthy_get_prop_nonproto in E; [contradiction | exact Hp].
  - intros Hin. unfold removeCredentials.
    rewrite (truthy_get_prop_own _ _ Hin). simpl.
    split; [reflexivity |]. split; [reflexivity |]. split.
    + intros Ha. apply active_is_true in Ha. rewrite Ha.
      destruct (object_keys (delete_prop name (credentials config))) as [| k ks];
        simpl; split; intros H; try reflexivity; try congruence.
      exists k. split; [reflexivity | left; reflexivity].
    + intros Ha. destruct (active_is config name) eqn:E; [| reflexivity].
      apply active_is_true in E. contradiction.
Qed.

(** [setActive] for a name that is no member of [Object.prototype]. *)
Theorem setActive_spec (config : Config) name :
  is_proto_member name = false ->
  (In name (object_keys (credentials config)) ->
     setActive name config = ({| active := Some name; credentials := credentials config |}, true)) /\
  (~ In name (object_keys (credentials config)) -> setActive name config = (config, false)).
Proof.
  intros Hp. unfold setActive. split; intros H.
  - rewrite (truthy_get_prop_own _ _ H). reflexivity.
  - destruct (truthy (get_prop (credentials config) name)) eqn:E; [| reflexivity].
    apply truthy_get_prop_nonproto in E; [contradiction | exact Hp].
Qed.

(** The calls that keep clear of [Object.prototype]. *)
Definition op_avoids_prototype (op : Op) : Prop :=
  match op with
  | Add n _ => n <> "__proto__"
  | Remove _ => True
  | SetActive n => is_proto_member n = false
  end.

Lemma step_active_ok (config : Config) (op : Op) :
  active_ok config -> op_avoids_prototype op -> active_ok (step config op).
Proof.
  unfold active_ok. intros Hinv Hop. destruct op as [n c | n | n]; simpl in *.
  - unfold addCredentials. simpl. rewrite set_prop_nonproto by exact Hop.
    destruct (Nat.eqb _ 1).
    + apply put_own_keys. left. reflexivity.
    + destruct (active config) as [a |]; [| exact I].
      apply put_own_keys. right. exact Hinv.
  - unfold removeCredentials.
    destruct (truthy (get_prop (credentials config) n)); simpl; [| exact Hinv].
    destruct (active_is config n) eqn:E.
    + unfold object_keys at 1.
      destruct (map fst (delete_prop n (credentials config))) as [| k ks] eqn:K;
        [exact I | unfold object_keys; rewrite K; left; reflexivity].
    + destruct (active config) as [a |] eqn:A; [| exact I].
      apply delete_keys. split; [exact Hinv |].
      intros ->. unfold active_is in E. rewrite A, String.eqb_refl in E. discriminate.
  - unfold setActive.
    destruct (truthy (get_prop (credentials config) n)) eqn:E; simpl; [| exact Hinv].
    apply truthy_get_prop_nonproto in E; [exact E | exact Hop].
Qed.

(** Every document reached from the empty one through calls that keep
    clear of [Object.prototype] satisfies the invariant. *)
Theorem run_active_ok (ops : list Op) :
  Forall op_avoids_prototype ops -> active_ok (run getDefaultConfig ops).
Proof.
  unfold run. generalize getDefaultConfig active_ok_default.
  induction ops as [| op ops IH]; intros config Hc Hops; simpl; [exact Hc |].
  inversion Hops as [| ? ? Hop Hrest]; subst.
  apply IH; [apply step_active_ok |]; assumption.
Qed.

(** [getActiveCredentials] answers with the active name and the value read
    under it; for a name outside [Object.prototype] that is the own entry. *)
Theorem getActiveCredentials_spec (config : Config) n p :
  getActiveCredentials config = Some (n, p) ->
  active config = Some n /\ p = get_prop (credentials config) n /\
  (is_proto_member n = false ->
     exists c, p = Own c /\ own_lookup n (credentials config) = Some c).
Proof.
  unfold getActiveCredentials. destruct (active config) as [a |]; [| discriminate].
  destruct (String.eqb a ""); [discriminate |].
  unfold get_prop. destruct (own_lookup a (credentials config)) as [c |] eqn:E.
  - intros H. injection H as <- <-. split; [reflexivity |]. split; [rewrite ?E, ?Pa; reflexivity |].
    intros _. exists c. auto.
  - destruct (is_proto_member a) eqn:Pa; [| discriminate].
    intros H. injection H as <- <-. split; [reflexivity |]. split; [rewrite ?E, ?Pa; reflexivity |].
    intros Hp. congruence.
Qed.

End StoreFacts.

(* ------------------------------------------------------------------ *)
(** ** The validator: totality and [Promise.all] *)

Module ValidatorFacts.

(** Take apart a computation of the exception monad that returned [Ok]. *)
Ltac bind_inv H :=
  repeat match type of H with
         | bind ?m _ = _ => let E := fresh "E" in destruct m eqn:E; cbn [bind] in H;
                            try discriminate H
         | (if ?b then _ else _) = _ => let E := fresh "E" in destruct b eqn:E
         end.

(** [validateCredentials] always returns a result under the given name. *)
Lemma validateCredentials_returns fetch name creds :
  exists res, validateCredentials fetch name creds = Ok res /\ vr_name res = name.
Proof.
  unfold validateCredentials, try_catch.
  destruct (bind (fetch (request_for creds)) _) as [res | e] eqn:H;
    [| eexists; split; reflexivity].
  exists res. split; [reflexivity |].
  bind_inv H; injection H as <-; reflexivity.
Qed.

Lemma get_field_defined (u : jsv) p :
  u <> JUndefined -> u <> JNull -> exists x, get_field u p = Ok x.
Proof.
  intros H1 H2. destruct u; simpl; try congruence; eauto.
  destruct (own_lookup p kvs); eauto.
Qed.

Lemma length_set_nth {A : Type} (l : list A) i x : length (set_nth l i x) = length l.
Proof.
  revert i. induction l as [| h t IH]; intros [| i]; simpl; auto.
Qed.

Lemma nth_error_set_nth {A : Type} (l : list A) i x j :
  i < length l ->
  nth_error (set_nth l i x) j = if Nat.eqb i j then Some x else nth_error l j.
Proof.
  revert i j. induction l as [| h t IH]; intros i j Hi; simpl in Hi; [lia |].
  destruct i as [| i], j as [| j]; simpl; auto.
  apply IH. lia.
Qed.

Lemma settle_all_ok {A : Type} (xs : list A) (order : list nat) (slots : list (option A)) :
  (forall i, In i order -> i < length xs) ->
  length slots = length xs ->
  exists s', settle (map Ok xs) order slots = Ok s' /\ length s' = length xs /\
    forall j, nth_error s' j =
      if in_dec Nat.eq_dec j order then nth_error (map Some xs) j else nth_error slots j.
Proof.
  revert slots. induction order as [| i rest IH]; intros slots Hin Hlen; cbn [settle].
  - exists slots. split; [reflexivity |]. split; [exact Hlen | reflexivity].
  - assert (Hi : i < length xs) by (apply Hin; left; reflexivity).
    destruct (nth_error xs i) as [x |] eqn:Ex;
      [| apply nth_error_None in Ex; lia].
    rewrite nth_error_map, Ex. cbn [option_map].
    destruct (IH (set_nth slots i (Some x))) as [s' [Hs [Hl Hj]]].
    + intros k Hk. apply Hin. right. exact Hk.
    + rewrite length_set_nth. exact Hlen.
    + exists s'. split; [exact Hs |]. split; [exact Hl |].
      intros j. rewrite Hj.
      destruct (in_dec Nat.eq_dec j rest) as [Hr | Hr];
        destruct (in_dec Nat.eq_dec j (i :: rest)) as [Hr' | Hr'];
        try reflexivity.
      * exfalso. apply Hr'. right. exact Hr.
      * rewrite nth_error_set_nth by lia.
        destruct Hr' as [-> | Hr']; [| contradiction].
        rewrite Nat.eqb_refl, nth_error_map, Ex. reflexivity.
      * rewrite nth_error_set_nth by lia.
        destruct (Nat.eqb_spec i j) as [-> | Hne]; [| reflexivity].
        exfalso. apply Hr'. left. reflexivity.
Qed.

Lemma all_some_map {A : Type} (xs : list A) : all_some (map Some xs) = Some xs.
Proof. induction xs as [| x xs IH]; simpl; [| rewrite IH]; reflexivity. Qed.

(** [Promise.all] over fulfilled promises gives their values in index order,
    whatever the order they settle in. *)
Lemma promise_all_fulfilled {A : Type} (xs : list A) (order : list nat) :
  Permutation order (seq 0 (length xs)) ->
  promise_all (map Ok xs) order = Some (Ok xs).
Proof.
  intros Hp. unfold promise_all.
  destruct (settle_all_ok xs order (repeat None (length (map Ok xs)))) as [s' [Hs [Hl Hj]]].
  - intros i Hi. apply (Permutation_in _ Hp), in_seq in Hi. lia.
  - rewrite repeat_length, length_map. reflexivity.
  - rewrite Hs.
    assert (Heq : s' = map Some xs).
    { apply nth_error_ext. intros j. rewrite Hj.
      destruct (in_dec Nat.eq_dec j order) as [Hin | Hout]; [reflexivity |].
      assert (Hge : length xs <= j).
      { destruct (Nat.le_gt_cases (length xs) j) as [H | H]; [exact H |].
        exfalso. apply Hout. apply (Permutation_in _ (Permutation_sym Hp)).
        apply in_seq. lia. }
      transitivity (@None (option A)).
      - apply nth_error_None. rewrite repeat_length, length_map. exact Hge.
      - symmetry. apply nth_error_None. rewrite length_map. exact Hge. }
    rewrite Heq, all_some_map. reflexivity.
Qed.

Lemma validate_each fetch (m : list (string * Credentials)) :
  exists rs,
    map (fun '(name, creds) => validateCredentials fetch name creds) m = map Ok rs /\
    map vr_name rs = map fst m /\
    Forall2 (fun kv r => validateCredentials fetch (fst kv) (snd kv) = Ok r) m rs.
Proof.
  induction m as [| [n c] m IH]; simpl.
  - exists []. auto.
  - destruct IH as [rs [H1 [H2 H3]]].
    destruct (validateCredentials_returns fetch n c) as [r [Hr Hn]].
    exists (r :: rs). simpl. rewrite Hr, H1, H2, Hn. auto.
Qed.

End ValidatorFacts.

Import ValidatorFacts.

(* ------------------------------------------------------------------ *)
(** ** The claims *)

Module Claims.

Definition prod_creds : Credentials := mkCredentials "https://cms.example.com/" "tok".

(** C1: the invariant [active_ok] fails on a document reachable from the
    empty one with two [addCredentials] calls: adding ["__proto__"] runs the
    [__proto__] setter, so no key is added, yet the single existing key
    makes the code set [active] to ["__proto__"]. *)
Theorem C1_add_proto_dangling_active :
  run getDefaultConfig [Add "a" prod_creds; Add "__proto__" prod_creds]
    = {| active := Some "__proto__"; credentials := [("a", prod_creds)] |} /\
  ~ active_ok (run getDefaultConfig [Add "a" prod_creds; Add "__proto__" prod_creds]).
Proof.
  split; [reflexivity |].
  unfold active_ok. simpl. intros [H | []]. discriminate H.
Qed.

(** C2: [removeCredentials("toString")] on the empty document returns
    true although "toString" is no key: [config.credentials["toString"]] is
    the inherited [Object.prototype.toString], which is truthy. *)
Theorem C2_remove_absent_toString :
  ~ In "toString" (object_keys (credentials getDefaultConfig)) /\
  removeCredentials "toString" getDefaultConfig = (getDefaultConfig, true).
Proof. split; [simpl; tauto | reflexivity]. Qed.

(** C3 (counterexample): a config file holding the valid JSON text [null],
    which is not the expected structure, makes [readConfig] return [null]
    rather than the default document; and when the config directory is
    missing and [mkdirSync] fails, [readConfig] raises. *)
Theorem C3_readConfig_counterexample :
  let fs := {| dir_exists := true; mkdir_error := None; config_file := FileJson JNull |} in
  let e := ErrorObj "Error" "EACCES: permission denied, mkdir" in
  decode_config JNull = None /\
  readConfig fs = Ok (fs, JNull) /\ JNull <> default_config_json /\
  readConfig {| dir_exists := false; mkdir_error := Some e; config_file := NoFile |} = Throw e.
Proof. repeat split; discriminate. Qed.

(** C3 (amended): [readConfig] raises exactly when the config directory is
    missing and cannot be created; otherwise it returns the parsed content
    when the file holds valid JSON, whatever its structure, and the default
    empty document when the file is absent, unreadable or not valid JSON. *)
Theorem C3_readConfig_spec (fs : FS) :
  (forall e, readConfig fs = Throw e <-> dir_exists fs = false /\ mkdir_error fs = Some e) /\
  (forall fs' v, readConfig fs = Ok (fs', v) ->
     v = match config_file fs with
         | FileJson parsed => parsed
         | NoFile | FileNotJson _ | FileUnreadable _ => default_config_json
         end).
Proof.
  destruct fs as [d me c]. unfold readConfig, ensureConfigDir. simpl.
  split.
  - intros e. destruct d; [| destruct me as [e' |]]; cbn [bind];
      destruct c; simpl; split; intros H; intuition congruence.
  - intros fs' v. destruct d; [| destruct me as [e' |]]; cbn [bind];
      destruct c; simpl; intros H; try discriminate; injection H as _ <-; reflexivity.
Qed.

(** C4: [addCredentials("__proto__", creds)] on the empty document stores
    nothing and leaves [active] null: the assignment runs the [__proto__]
    setter instead of adding a key. *)
Theorem C4_add_proto_not_stored :
  addCredentials "__proto__" prod_creds getDefaultConfig = getDefaultConfig /\
  own_lookup "__proto__" (credentials (addCredentials "__proto__" prod_creds getDefaultConfig)) = None.
Proof. split; reflexivity. Qed.

(** C5: [setActive("toString")] on the empty document returns true and
    makes "toString" active although it is no key. *)
Theorem C5_setActive_toString :
  ~ In "toString" (object_keys (credentials getDefaultConfig)) /\
  setActive "toString" getDefaultConfig
    = ({| active := Some "toString"; credentials := [] |}, true).
Proof. split; [simpl; tauto | reflexivity]. Qed.

Definition fetch_status (s : Z) (b : Body) : Request -> Exc Response :=
  fun _ => Ok {| status := s; body := b |}.

(** C6 (counterexample): a 200 response whose body is not valid JSON gives
    [success = false], not [success = true]. *)
Theorem C6_ok_status_invalid_json :
  let msg := "Unexpected token < in JSON at position 0" in
  response_ok {| status := 200; body := BodyNotJson msg |} = true /\
  validateCredentials (fetch_status 200 (BodyNotJson msg)) "prod" prod_creds
    = Ok {| vr_name := "prod"; success := false; message := msg; user := None |}.
Proof. split; reflexivity. Qed.

(** The [ok] branch of [validateCredentials], once [fetch] has answered. *)
Lemma validate_ok_status fetch name creds r :
  fetch (request_for creds) = Ok r -> response_ok r = true ->
  validateCredentials fetch name creds =
    try_catch
      (data <- response_json r ;;
       u <- get_field data "data" ;;
       i <- get_field u "id" ;;
       e <- get_field u "email" ;;
       f <- get_field u "first_name" ;;
       l <- get_field u "last_name" ;;
       Ok {| vr_name := name; success := true; message := "Valid";
             user := Some {| id := i; email := e; first_name := f; last_name := l |} |})
      (fun error =>
         Ok {| vr_name := name; success := false; message := error_message error; user := None |}).
Proof.
  intros Hf Hok. unfold validateCredentials. rewrite Hf. cbn [bind]. rewrite Hok. reflexivity.
Qed.

Lemma validate_defined_data fetch name creds r v u :
  fetch (request_for creds) = Ok r -> response_ok r = true ->
  body r = BodyJson v -> get_field v "data" = Ok u -> u <> JUndefined -> u <> JNull ->
  exists i e f l,
    get_field u "id" = Ok i /\ get_field u "email" = Ok e /\
    get_field u "first_name" = Ok f /\ get_field u "last_name" = Ok l /\
    validateCredentials fetch name creds =
      Ok {| vr_name := name; success := true; message := "Valid"; user := Some (mkUser i e f l) |}.
Proof.
  intros Hf Hok Hb Hu H1 H2. rewrite (validate_ok_status _ _ _ _ Hf Hok).
  unfold response_json. rewrite Hb. cbn [bind]. rewrite Hu. cbn [bind].
  destruct (get_field_defined u "id" H1 H2) as [i Hi].
  destruct (get_field_defined u "email" H1 H2) as [e He].
  destruct (get_field_defined u "first_name" H1 H2) as [f Hf'].
  destruct (get_field_defined u "last_name" H1 H2) as [l Hl].
  exists i, e, f, l. rewrite Hi, He, Hf', Hl. auto 6.
Qed.

(** C6 (amended): a response that is not [ok] gives [success = false] with
    the message of its status; an [ok] response gives [success = true],
    message "Valid" and the fields read from [data] exactly when the body is
    JSON with a [data] field that is neither undefined nor null. *)
Theorem C6_validateCredentials_by_status fetch name creds r :
  fetch (request_for creds) = Ok r ->
  exists res, validateCredentials fetch name creds = Ok res /\ vr_name res = name /\
  (response_ok r = false ->
     success res = false /\ user res = None /\
     (status r = 401%Z -> message res = "Unauthorized - Invalid or expired token") /\
     (status r = 403%Z -> message res = "Forbidden - Token lacks required permissions") /\
     (status r = 404%Z -> message res = "Not found - Check if the URL is correct") /\
     (status r <> 401%Z -> status r <> 403%Z -> status r <> 404%Z ->
        message res = "HTTP " ++ string_of_Z (status r))) /\
  (response_ok r = true ->
     (success res = true <->
        exists v u, body r = BodyJson v /\ get_field v "data" = Ok u /\
                    u <> JUndefined /\ u <> JNull) /\
     (forall v u, body r = BodyJson v -> get_field v "data" = Ok u ->
        u <> JUndefined -> u <> JNull ->
        exists i e f l,
          get_field u "id" = Ok i /\ get_field u "email" = Ok e /\
          get_field u "first_name" = Ok f /\ get_field u "last_name" = Ok l /\
          res = {| vr_name := name; success := true; message := "Valid";
                   user := Some (mkUser i e f l) |})).
Proof.
  intros Hf. destruct (response_ok r) eqn:Hok.
  - (* ok: classify the body *)
    destruct (body r) as [v | msg] eqn:Hb.
    + destruct (get_field v "data") as [u | e] eqn:Hu.
      * assert (Hcase : (u = JUndefined \/ u = JNull) \/ (u <> JUndefined /\ u <> JNull))
          by (destruct u; try (left; left; reflexivity); try (left; right; reflexivity);
              right; split; discriminate).
        destruct Hcase as [Hbad | [H1 H2]].
        -- rewrite (validate_ok_status _ _ _ _ Hf Hok); unfold response_json.
           rewrite Hb. cbn [bind]. rewrite Hu. cbn [bind].
           destruct Hbad as [-> | ->]; cbn [get_field bind try_catch];
             (eexists; split; [reflexivity |]; split; [reflexivity |];
              split; [discriminate |]; intros _; split;
              [ split; [discriminate | intros [v' [u' [Hb' [Hu' [H1 H2]]]]]]
              | intros v' u' Hb' Hu' H1 H2 ]); congruence.
        -- destruct (validate_defined_data fetch name creds r v u Hf Hok Hb Hu H1 H2)
             as [i [e [f [l [Hi [He [Hf' [Hl Hv]]]]]]]].
           eexists; split; [exact Hv |]; split; [reflexivity |];
             split; [discriminate |]; intros _; split.
           ++ split; [intros _; exists v, u; auto | reflexivity].
           ++ intros v' u' Hb' Hu' _ _. injection Hb' as <-.
              rewrite Hu in Hu'; injection Hu' as <-. exists i, e, f, l. auto 6.
      * rewrite (validate_ok_status _ _ _ _ Hf Hok); unfold response_json.
        rewrite Hb. cbn [bind]. rewrite Hu. cbn [bind try_catch].
        eexists; split; [reflexivity |]; split; [reflexivity |];
          split; [discriminate |]; intros _; split;
          [ split; [discriminate | intros [v' [u' [Hb' [Hu' _]]]]]
          | intros v' u' Hb' Hu' _ _ ]; congruence.
    + rewrite (validate_ok_status _ _ _ _ Hf Hok); unfold response_json.
      rewrite Hb. cbn [bind try_catch].
      eexists; split; [reflexivity |]; split; [reflexivity |];
        split; [discriminate |]; intros _; split;
        [ split; [discriminate | intros [v' [u' [Hb' _]]]; discriminate Hb']
        | intros v' u' Hb'; discriminate Hb' ].
  - (* not ok: classify the status *)
    unfold validateCredentials. rewrite Hf. cbn [bind]. rewrite Hok. cbn [negb try_catch].
    eexists; split; [reflexivity |]; split; [reflexivity |].
    split; [| discriminate].
    intros _; simpl. unfold status_message.
    split; [reflexivity |]; split; [reflexivity |].
    split; [intros -> ; reflexivity |].
    split; [intros -> ; reflexivity |].
    split; [intros -> ; reflexivity |].
    intros H1 H2 H3. apply Z.eqb_neq in H1, H2, H3. rewrite H1, H2, H3. reflexivity.
Qed.

Lemma C6_witness :
  fetch_status 401 (BodyJson JNull) (request_for prod_creds)
    = Ok {| status := 401; body := BodyJson JNull |} /\
  exists res,
    validateCredentials (fetch_status 401 (BodyJson JNull)) "prod" prod_creds = Ok res /\
    message res = "Unauthorized - Invalid or expired token".
Proof.
  split; [reflexivity |].
  destruct (C6_validateCredentials_by_status (fetch_status 401 (BodyJson JNull)) "prod"
              prod_creds {| status := 401; body := BodyJson JNull |} eq_refl)
    as [res [Hv [_ [Hno _]]]].
  exists res. split; [exact Hv |].
  destruct (Hno eq_refl) as [_ [_ [H401 _]]]. apply H401. reflexivity.
Defined.

(** C7: when [fetch] rejects with an [Error], [validateCredentials] returns
    [success = false] under the given name, with the message picked by the
    patterns of the error text, tried in the listed order, and the text
    itself when none occurs. *)
Theorem C7_network_error_message fetch name creds ename msg :
  fetch (request_for creds) = Throw (ErrorObj ename msg) ->
  exists res, validateCredentials fetch name creds = Ok res /\
    vr_name res = name /\ success res = false /\ user res = None /\
    (includes msg "ECONNREFUSED" = true ->
       message res = "Connection refused - Server may be down") /\
    (includes msg "ECONNREFUSED" = false -> includes msg "ENOTFOUND" = true ->
       message res = "Host not found - Check the URL") /\
    (includes msg "ECONNREFUSED" = false -> includes msg "ENOTFOUND" = false ->
     includes msg "ETIMEDOUT" = true ->
       message res = "Connection timed out") /\
    (includes msg "ECONNREFUSED" = false -> includes msg "ENOTFOUND" = false ->
     includes msg "ETIMEDOUT" = false -> includes msg "certificate" = true ->
       message res = "SSL certificate error") /\
    (includes msg "ECONNREFUSED" = false -> includes msg "ENOTFOUND" = false ->
     includes msg "ETIMEDOUT" = false -> includes msg "certificate" = false ->
       message res = msg).
Proof.
  intros Hf. unfold validateCredentials. rewrite Hf. cbn [bind try_catch].
  eexists; split; [reflexivity |]. cbn [vr_name success user message error_message].
  do 3 (split; [reflexivity |]).
  destruct (includes msg "ECONNREFUSED"), (includes msg "ENOTFOUND"),
    (includes msg "ETIMEDOUT"), (includes msg "certificate");
    repeat split; intros; first [reflexivity | discriminate].
Qed.

Lemma C7_witness :
  (fun _ : Request => @Throw Response (ErrorObj "TypeError" "connect ECONNREFUSED 127.0.0.1:8055"))
    (request_for prod_creds)
    = Throw (ErrorObj "TypeError" "connect ECONNREFUSED 127.0.0.1:8055") /\
  exists res,
    validateCredentials
      (fun _ => Throw (ErrorObj "TypeError" "connect ECONNREFUSED 127.0.0.1:8055"))
      "prod" prod_creds = Ok res /\
    success res = false /\ message res = "Connection refused - Server may be down".
Proof.
  split; [reflexivity |].
  destruct (C7_network_error_message
              (fun _ => Throw (ErrorObj "TypeError" "connect ECONNREFUSED 127.0.0.1:8055"))
              "prod" prod_creds "TypeError" "connect ECONNREFUSED 127.0.0.1:8055" eq_refl)
    as [res [Hv [_ [Hs [_ [H1 _]]]]]].
  exists res. split; [exact Hv |]. split; [exact Hs |]. apply H1. reflexivity.
Defined.

(** C8: whatever order the requests settle in, [validateAllCredentials]
    fulfils with one result per entry, in the order of the entries, each
    named after its entry and equal to that entry's own validation. *)
Theorem C8_validateAll_order fetch (m : list (string * Credentials)) (order : list nat) :
  Permutation order (seq 0 (length m)) ->
  exists rs, validateAllCredentials fetch m order = Some (Ok rs) /\
    length rs = length m /\ map vr_name rs = map fst m /\
    Forall2 (fun kv r => validateCredentials fetch (fst kv) (snd kv) = Ok r) m rs.
Proof.
  intros Hp. destruct (validate_each fetch m) as [rs [H1 [H2 H3]]].
  assert (Hl : length rs = length m).
  { rewrite <- (length_map vr_name rs), <- (length_map fst m). f_equal. exact H2. }
  exists rs. unfold validateAllCredentials. rewrite H1.
  split; [apply promise_all_fulfilled; rewrite Hl; exact Hp |]. auto.
Qed.

Lemma C8_witness :
  Permutation [1; 0] (seq 0 (length [("a", prod_creds); ("b", prod_creds)])) /\
  exists rs,
    validateAllCredentials (fetch_status 200 (BodyJson JNull))
      [("a", prod_creds); ("b", prod_creds)] [1; 0] = Some (Ok rs) /\
    map vr_name rs = ["a"; "b"].
Proof.
  assert (Hp : Permutation [1; 0] (seq 0 (length [("a", prod_creds); ("b", prod_creds)])))
    by (simpl; apply perm_swap).
  split; [exact Hp |].
  destruct (C8_validateAll_order (fetch_status 200 (BodyJson JNull))
              [("a", prod_creds); ("b", prod_creds)] [1; 0] Hp) as [rs [Hv [_ [Hn _]]]].
  exists rs. split; [exact Hv | exact Hn].
Defined.

(** C9: on the document of C1, whose [active] is the dangling name
    "__proto__", [getActiveCredentials] does not return null: it returns
    the name with the inherited [Object.prototype]. *)
Theorem C9_dangling_proto_active :
  let d := run getDefaultConfig [Add "a" prod_creds; Add "__proto__" prod_creds] in
  active d = Some "__proto__" /\
  ~ In "__proto__" (object_keys (credentials d)) /\
  getActiveCredentials d = Some ("__proto__", Inherited "__proto__").
Proof.
  cbn zeta. split; [reflexivity |]. split; [| reflexivity].
  simpl. intros [H | []]. discriminate H.
Qed.

(** C10 (counterexample): a 200 response whose body is [{"data": 5}] has
    no nested data object, yet it yields [success = true]. *)
Theorem C10_data_number_succeeds :
  has_data_object (JObj [("data", JNum 5)]) = false /\
  validateCredentials (fetch_status 200 (BodyJson (JObj [("data", JNum 5)]))) "prod" prod_creds
    = Ok {| vr_name := "prod"; success := true; message := "Valid";
            user := Some (mkUser JUndefined JUndefined JUndefined JUndefined) |}.
Proof. split; reflexivity. Qed.

(** C10 (amended): for an [ok] response, a body that is not JSON, or whose
    [data] field cannot be read or is undefined or null, makes
    [validateCredentials] return [success = false] with the message the
    [catch] block derives from the error; a [data] field that is present and
    not null, whatever its type, gives [success = true], message "Valid" and
    the identity fields of [data], undefined where absent. *)
Theorem C10_malformed_body_caught fetch name creds r :
  fetch (request_for creds) = Ok r -> response_ok r = true ->
  (forall msg, body r = BodyNotJson msg ->
     validateCredentials fetch name creds =
       Ok {| vr_name := name; success := false;
             message := error_message (ErrorObj "SyntaxError" msg); user := None |}) /\
  (forall v e, body r = BodyJson v -> get_field v "data" = Throw e ->
     validateCredentials fetch name creds =
       Ok {| vr_name := name; success := false; message := error_message e; user := None |}) /\
  (forall v u, body r = BodyJson v -> get_field v "data" = Ok u -> u = JUndefined \/ u = JNull ->
     exists e, get_field u "id" = Throw e /\
       validateCredentials fetch name creds =
         Ok {| vr_name := name; success := false; message := error_message e; user := None |}) /\
  (forall v u, body r = BodyJson v -> get_field v "data" = Ok u -> u <> JUndefined -> u <> JNull ->
     let field p := match u with
                    | JObj kvs => match own_lookup p kvs with Some y => y | None => JUndefined end
                    | _ => JUndefined
                    end in
     validateCredentials fetch name creds =
       Ok {| vr_name := name; success := true; message := "Valid";
             user := Some (mkUser (field "id") (field "email") (field "first_name")
                                  (field "last_name")) |}).
Proof.
  intros Hf Hok. rewrite (validate_ok_status _ _ _ _ Hf Hok). unfold response_json.
  split; [intros msg Hb; rewrite Hb; reflexivity |].
  split; [intros v e Hb Hu; rewrite Hb; cbn [bind]; rewrite Hu; reflexivity |].
  split.
  - intros v u Hb Hu [-> | ->]; eexists; (split; [reflexivity |]);
      rewrite Hb; cbn [bind]; rewrite Hu; reflexivity.
  - intros v u Hb Hu H1 H2. cbv zeta. rewrite Hb. cbn [bind]. rewrite Hu. cbn [bind].
    destruct u as [| | b | n | str | xs | kvs | m]; try congruence; try reflexivity.
    simpl. destruct (own_lookup "id" kvs), (own_lookup "email" kvs),
      (own_lookup "first_name" kvs), (own_lookup "last_name" kvs); reflexivity.
Qed.

Lemma C10_witness :
  fetch_status 200 (BodyNotJson "Unexpected end of JSON input") (request_for prod_creds)
    = Ok {| status := 200; body := BodyNotJson "Unexpected end of JSON input" |} /\
  response_ok {| status := 200; body := BodyNotJson "Unexpected end of JSON input" |} = true /\
  validateCredentials (fetch_status 200 (BodyNotJson "Unexpected end of JSON input"))
    "prod" prod_creds
    = Ok {| vr_name := "prod"; success := false;
            message := "Unexpected end of JSON input"; user := None |}.
Proof.
  split; [reflexivity |]. split; [reflexivity |].
  destruct (C10_malformed_body_caught (fetch_status 200 (BodyNotJson "Unexpected end of JSON input"))
              "prod" prod_creds {| status := 200; body := BodyNotJson "Unexpected end of JSON input" |}
              eq_refl eq_refl) as [H _].
  rewrite (H _ eq_refl). reflexivity.
Defined.

End Claims.

(* ------------------------------------------------------------------ *)
(** ** Facts used by the properties of the readers, the library and the CLI *)

Module ExtraFacts.

Lemma get_prop_own_lookup (o : list (string * Credentials)) k c :
  own_lookup k o = Some c -> get_prop o k = Own c.
Proof. intros H. unfold get_prop. rewrite H. reflexivity. Qed.

Lemma get_prop_absent (o : list (string * Credentials)) k :
  own_lookup k o = None ->
  get_prop o k = if is_proto_member k then Inherited k else Undefined.
Proof. intros H. unfold get_prop. rewrite H. reflexivity. Qed.

Lemma own_lookup_in (o : list (string * Credentials)) k :
  In k (object_keys o) -> exists c, own_lookup k o = Some c.
Proof.
  intros Hin. destruct (own_lookup k o) as [c |] eqn:E; [eauto |].
  apply own_lookup_keys in E. contradiction.
Qed.

(** Putting a fresh key appends it. *)
Lemma put_own_fresh (o : list (string * Credentials)) k v :
  ~ In k (object_keys o) -> put_own k v o = (o ++ [(k, v)])%list.
Proof.
  induction o as [| [k' v'] o IH]; simpl; intros Hk; [reflexivity |].
  destruct (String.eqb_spec k k') as [-> | Hne]; [exfalso; auto |].
  rewrite IH; [reflexivity | auto].
Qed.

Lemma delete_fresh (o : list (string * Credentials)) k :
  ~ In k (object_keys o) -> delete_prop k o = o.
Proof.
  induction o as [| [k' v'] o IH]; simpl; intros Hk; [reflexivity |].
  destruct (String.eqb_spec k k') as [-> | Hne]; [exfalso; auto |].
  simpl. rewrite IH; [reflexivity | auto].
Qed.

Lemma delete_app_last (o : list (string * Credentials)) k v :
  ~ In k (object_keys o) -> delete_prop k (o ++ [(k, v)])%list = o.
Proof.
  intros Hk. unfold delete_prop. rewrite filter_app. simpl. rewrite String.eqb_refl.
  simpl. rewrite app_nil_r. apply delete_fresh. exact Hk.
Qed.

Lemma choice_values_name_choices (names : list string) (a : option string) :
  choice_values (name_choices names a) = names.
Proof.
  induction names as [| n names IH]; simpl; [reflexivity |].
  rewrite IH. reflexivity.
Qed.

Lemma choice_values_app (cs ds : list Choice) :
  choice_values (cs ++ ds)%list = (choice_values cs ++ choice_values ds)%list.
Proof. unfold choice_values. apply flat_map_app. Qed.

Lemma select_choices_values (config : Config) :
  choice_values (select_choices config) =
  (object_keys (credentials config) ++ ["__cancel__"])%list.
Proof.
  unfold select_choices. rewrite choice_values_app, choice_values_name_choices.
  reflexivity.
Qed.

Lemma prompt_choices_values (config : Config) (allowManual : bool) :
  choice_values (prompt_choices config allowManual) =
  (object_keys (credentials config) ++ (if allowManual then ["__manual__"] else []))%list.
Proof.
  unfold prompt_choices. rewrite choice_values_app, choice_values_name_choices.
  destruct allowManual; reflexivity.
Qed.

(** Strings. *)
Lemma str_length_append (a b : string) :
  String.length (a ++ b) = String.length a + String.length b.
Proof. induction a as [| c a IH]; simpl; [reflexivity | rewrite IH; reflexivity]. Qed.

Lemma str_append_assoc (a b c : string) : a ++ (b ++ c) = (a ++ b) ++ c.
Proof. induction a as [| x a IH]; simpl; [reflexivity | rewrite IH; reflexivity]. Qed.

Lemma substring_0_full (s : string) : substring 0 (String.length s) s = s.
Proof. induction s as [| c s IH]; simpl; [reflexivity | rewrite IH; reflexivity]. Qed.

Lemma substring_0_length (s : string) n :
  n <= String.length s -> String.length (substring 0 n s) = n.
Proof.
  revert n. induction s as [| c s IH]; intros [| n] Hn; simpl in *; try lia.
  f_equal. apply IH. lia.
Qed.

Lemma substring_0_app (p q : string) n :
  String.length p = n -> substring 0 n (p ++ q) = p.
Proof.
  revert n. induction p as [| c p IH]; intros [| n] Hn; simpl in *; try lia.
  - destruct q; reflexivity.
  - f_equal. apply IH. lia.
Qed.

Lemma substring_split (s : string) n :
  n <= String.length s -> s = substring 0 n s ++ substring n (String.length s - n) s.
Proof.
  revert n. induction s as [| c s IH]; intros [| n] Hn; simpl in *; try lia.
  - reflexivity.
  - rewrite substring_0_full. reflexivity.
  - f_equal. apply IH. lia.
Qed.

Lemma string_split_at (s : string) n :
  n <= String.length s ->
  exists a b, s = a ++ b /\ String.length a = n /\ substring 0 n s = a /\
              substring n (String.length s - n) s = b.
Proof.
  intros Hn. exists (substring 0 n s), (substring n (String.length s - n) s).
  split; [apply substring_split; exact Hn |].
  split; [apply substring_0_length; exact Hn |]. auto.
Qed.

Lemma list_ascii_of_string_append (a b : string) :
  list_ascii_of_string (a ++ b) = (list_ascii_of_string a ++ list_ascii_of_string b)%list.
Proof. induction a as [| c a IH]; simpl; [reflexivity | rewrite IH; reflexivity]. Qed.

Lemma drop_slashes_repeat (k : nat) (cs : list ascii) :
  drop_slashes (repeat "/"%char k ++ cs)%list = drop_slashes cs.
Proof. induction k as [| k IH]; simpl; [reflexivity | exact IH]. Qed.

Lemma strip_trailing_slashes_more (u : string) (k : nat) :
  strip_trailing_slashes (u ++ string_of_list_ascii (repeat "/"%char k)) =
  strip_trailing_slashes u.
Proof.
  unfold strip_trailing_slashes.
  rewrite list_ascii_of_string_append, list_ascii_of_string_of_list_ascii.
  rewrite rev_app_distr, rev_repeat, drop_slashes_repeat. reflexivity.
Qed.

Lemma decode_entries_to_json (cs : list (string * Credentials)) :
  decode_entries (map (fun kv => (fst kv, credentials_to_json (snd kv))) cs) = Some cs.
Proof.
  induction cs as [| [k [u t]] cs IH]; simpl; [reflexivity |].
  rewrite IH. reflexivity.
Qed.

(** [hasCredentials(name)] holds exactly for the stored names and the
    members of [Object.prototype]. *)
Lemma hasCredentials_keys (config : Config) (name : string) :
  hasCredentials name config = true <->
  In name (object_keys (credentials config)) \/ is_proto_member name = true.
Proof.
  unfold hasCredentials. destruct (own_lookup name (credentials config)) eqn:E.
  - split; [intros _; left; eapply own_lookup_some_keys; eauto | reflexivity].
  - apply own_lookup_keys in E. split; [intros H; right; exact H |].
    intros [H | H]; [contradiction | exact H].
Qed.

End ExtraFacts.

Import ExtraFacts.

(* ------------------------------------------------------------------ *)
(** ** Properties of the readers, the library entry points and the CLI *)

Module Extras.

(** [writeConfig] raises exactly when the directory is missing and cannot
    be created; when it succeeds, [readConfig] returns the written document,
    which decodes back to the config written. *)
Theorem writeConfig_readConfig (fs : FS) (config : Config) :
  (forall e, writeConfig fs config = Throw e <->
             dir_exists fs = false /\ mkdir_error fs = Some e) /\
  (forall fs', writeConfig fs config = Ok fs' ->
     readConfig fs' = Ok (fs', config_to_json config) /\
     decode_config (config_to_json config) = Some config).
Proof.
  unfold writeConfig, ensureConfigDir. split.
  - intros e. destruct (dir_exists fs); [split; [discriminate | intros [H _]; discriminate] |].
    destruct (mkdir_error fs) as [e' |]; simpl.
    + split; [intros H; injection H as ->; auto | intros [_ H]; injection H as ->; reflexivity].
    + split; [discriminate | intros [_ H]; discriminate].
  - intros fs' Hw. split.
    + destruct (dir_exists fs) eqn:D; simpl in Hw.
      * injection Hw as <-. unfold readConfig, ensureConfigDir. simpl. rewrite D.
        reflexivity.
      * destruct (mkdir_error fs); simpl in Hw; [discriminate |].
        injection Hw as <-. reflexivity.
    + destruct config as [a cs]. unfold config_to_json, decode_config. simpl.
      rewrite decode_entries_to_json. destruct a; reflexivity.
Qed.

(** When the list prompt is shown, picking a saved name returns that set as a
    saved selection; picking the value "__manual__" always leads to manual
    entry, so a saved set named "__manual__" is never returned by the
    prompt. *)
Theorem promptForCredentials_pick (options : PromptOptions) (config : Config)
    (selected : string) (ans : ManualAnswers) :
  (opt_useActiveIfAvailable options <> Some true \/ getActiveCredentials config = None) ->
  credentials config <> [] ->
  In selected (choice_values (prompt_choices config
                 (match opt_allowManual options with Some b => b | None => true end))) ->
  (selected = "__manual__" ->
     promptForCredentials options config selected ans =
       Ok (promptManualEntry (match opt_saveManual options with
                              | Some b => b | None => true end) ans config)) /\
  (selected <> "__manual__" ->
     exists c, own_lookup selected (credentials config) = Some c /\
       promptForCredentials options config selected ans =
         Ok (mkSelection selected (JStr (url c)) (JStr (token c)) Saved, config)).
Proof.
  intros Hu Hc Hin. rewrite prompt_choices_values in Hin.
  assert (Hlen : Nat.eqb (length (object_keys (credentials config))) 0 = false)
    by (destruct (credentials config); [congruence | reflexivity]).
  assert (Hfb : promptForCredentials options config selected ans =
    (let allowManual := match opt_allowManual options with Some b => b | None => true end in
     let saveManual := match opt_saveManual options with Some b => b | None => true end in
     if String.eqb selected "__manual__" then Ok (promptManualEntry saveManual ans config)
     else s <- saved_selection selected (get_prop (credentials config) selected) ;;
          Ok (s, config))).
  { unfold promptForCredentials, getAllCredentials.
    destruct (opt_useActiveIfAvailable options) as [[|] |];
      [destruct Hu as [Hu | Hu]; [congruence | rewrite Hu] | |]; cbv zeta; rewrite Hlen;
      destruct (opt_allowManual options) as [[|] |]; reflexivity. }
  rewrite Hfb. cbv zeta. split.
  - intros ->. reflexivity.
  - intros Hm. apply String.eqb_neq in Hm. rewrite Hm. apply String.eqb_neq in Hm.
    assert (Hk : In selected (object_keys (credentials config))).
    { apply in_app_or in Hin. destruct Hin as [H | H]; [exact H |].
      destruct (opt_allowManual options) as [[|] |]; simpl in H;
        [destruct H as [H | []]; congruence | contradiction |
         destruct H as [H | []]; congruence]. }
    destruct (own_lookup_in _ _ Hk) as [c Hl]. exists c. split; [exact Hl |].
    rewrite (get_prop_own_lookup _ _ _ Hl). reflexivity.
Qed.

Lemma promptForCredentials_pick_witness :
  (opt_useActiveIfAvailable (mkPromptOptions None None None None) <> Some true \/
   getActiveCredentials (mkConfig (Some "prod")
     [("prod", mkCredentials "https://cms.example.com" "tok");
      ("__manual__", mkCredentials "https://old.example.com" "old")]) = None) /\
  credentials (mkConfig (Some "prod")
     [("prod", mkCredentials "https://cms.example.com" "tok");
      ("__manual__", mkCredentials "https://old.example.com" "old")]) <> [] /\
  In "__manual__" (choice_values (prompt_choices (mkConfig (Some "prod")
     [("prod", mkCredentials "https://cms.example.com" "tok");
      ("__manual__", mkCredentials "https://old.example.com" "old")]) true)) /\
  promptForCredentials (mkPromptOptions None None None None)
    (mkConfig (Some "prod")
       [("prod", mkCredentials "https://cms.example.com" "tok");
        ("__manual__", mkCredentials "https://old.example.com" "old")])
    "__manual__" (mkManualAnswers "https://new.example.com" "new" false "" false) =
  Ok (promptManualEntry true (mkManualAnswers "https://new.example.com" "new" false "" false)
        (mkConfig (Some "prod")
           [("prod", mkCredentials "https://cms.example.com" "tok");
            ("__manual__", mkCredentials "https://old.example.com" "old")])).
Proof.
  assert (H1 : opt_useActiveIfAvailable (mkPromptOptions None None None None) <> Some true \/
               getActiveCredentials (mkConfig (Some "prod")
                 [("prod", mkCredentials "https://cms.example.com" "tok");
                  ("__manual__", mkCredentials "https://old.example.com" "old")]) = None)
    by (left; discriminate).
  assert (H2 : credentials (mkConfig (Some "prod")
                 [("prod", mkCredentials "https://cms.example.com" "tok");
                  ("__manual__", mkCredentials "https://old.example.com" "old")]) <> [])
    by discriminate.
  assert (H3 : In "__manual__" (choice_values (prompt_choices (mkConfig (Some "prod")
                 [("prod", mkCredentials "https://cms.example.com" "tok");
                  ("__manual__", mkCredentials "https://old.example.com" "old")]) true)))
    by (cbn; auto).
  split; [exact H1 |]. split; [exact H2 |]. split; [exact H3 |].
  exact (proj1 (promptForCredentials_pick (mkPromptOptions None None None None)
           (mkConfig (Some "prod")
              [("prod", mkCredentials "https://cms.example.com" "tok");
               ("__manual__", mkCredentials "https://old.example.com" "old")])
           "__manual__" (mkManualAnswers "https://new.example.com" "new" false "" false)
           H1 H2 H3) eq_refl).
Defined.

(** [promptManualEntry(save)] returns the entered url and token as a manual
    selection.  Without saving, it is named "manual" and nothing is written.
    When saving under a name that [hasCredentials] reports and the user
    declines to overwrite, it returns the entered url and token under that
    name while the store keeps the old set.  Saving under a fresh name
    outside [Object.prototype] adds exactly that name to the names
    [listSaved()] returns and binds it to the entered url and token. *)
Theorem promptManualEntry_spec (save : bool) (ans : ManualAnswers) (config : Config) :
  let '(sel, config') := promptManualEntry save ans config in
  source sel = Manual /\ sel_url sel = JStr (ans_url ans) /\
  sel_token sel = JStr (ans_token ans) /\
  (save && ans_shouldSave ans = false -> sel_name sel = "manual" /\ config' = config) /\
  (save && ans_shouldSave ans = true ->
     sel_name sel = ans_credName ans /\
     (hasCredentials (ans_credName ans) config = true -> ans_overwrite ans = false ->
        config' = config) /\
     (~ In (ans_credName ans) (object_keys (credentials config)) ->
      is_proto_member (ans_credName ans) = false ->
        (forall k, In k (listSaved config') <-> k = ans_credName ans \/ In k (listSaved config)) /\
        own_lookup (ans_credName ans) (credentials config') =
          Some (mkCredentials (ans_url ans) (ans_token ans)))).
Proof.
  unfold promptManualEntry.
  destruct (save && ans_shouldSave ans) eqn:Hs.
  - destruct (hasCredentials (ans_credName ans) config) eqn:Hh.
    + destruct (ans_overwrite ans); simpl;
        (split; [reflexivity |]; split; [reflexivity |]; split; [reflexivity |];
         split; [discriminate |]; intros _; split; [reflexivity |]; split);
        try (intros _ Hf; discriminate); try (intros _ _; reflexivity);
        (intros Hk Hp; exfalso; apply hasCredentials_keys in Hh;
         destruct Hh as [Hh | Hh]; [contradiction | congruence]).
    + simpl. split; [reflexivity |]. split; [reflexivity |]. split; [reflexivity |].
      split; [discriminate |]. intros _. split; [reflexivity |].
      split; [discriminate |]. intros Hk Hp.
      assert (Hpr : ans_credName ans <> "__proto__")
        by (intros E; rewrite E in Hp; discriminate).
      unfold addCredentials, listSaved, getAllCredentials. simpl.
      rewrite set_prop_nonproto by exact Hpr.
      split; [intros k; apply put_own_keys |]. apply put_own_lookup.
  - simpl. split; [reflexivity |]. split; [reflexivity |]. split; [reflexivity |].
    split; [auto | discriminate].
Qed.

(** [maskToken(token)] shows "****" for a token of at most 12 characters;
    a longer token is shown as its first 4 characters, "..." and its last
    4 characters (11 characters), hiding a middle of at least 5. *)
Theorem maskToken_spec (t : string) :
  (String.length t <= 12 -> maskToken t = "****") /\
  (12 < String.length t ->
     exists p mid s, t = p ++ mid ++ s /\ String.length p = 4 /\ String.length s = 4 /\
       5 <= String.length mid /\ maskToken t = p ++ "..." ++ s /\
       String.length (maskToken t) = 11).
Proof.
  unfold maskToken. split; intros H.
  - apply Nat.leb_le in H. rewrite H. reflexivity.
  - assert (Hf : Nat.leb (String.length t) 12 = false) by (apply Nat.leb_gt; exact H).
    rewrite Hf.
    destruct (string_split_at t (String.length t - 4)) as (A & B & Ht & LA & _ & HB);
      [lia |].
    replace (String.length t - (String.length t - 4)) with 4 in HB by lia.
    rewrite HB.
    assert (LB : String.length B = 4)
      by (pose proof (f_equal String.length Ht) as E; rewrite str_length_append in E; lia).
    destruct (string_split_at A 4) as (C & D & HA & LC & _ & _); [lia |].
    assert (Ht' : t = C ++ D ++ B) by (rewrite Ht, HA, str_append_assoc; reflexivity).
    assert (HC : substring 0 4 t = C)
      by (rewrite Ht'; apply substring_0_app; exact LC).
    rewrite HC. exists C, D, B.
    split; [exact Ht' |]. split; [exact LC |]. split; [exact LB |].
    split; [pose proof (f_equal String.length HA) as E; rewrite str_length_append in E; lia |].
    split; [reflexivity |].
    rewrite !str_length_append. simpl. lia.
Qed.

(** [handleRemove()] keeps the invariant of the document.  Picking "Cancel"
    (value "__cancel__", also when a saved set has that name), an empty
    name, or declining the confirmation leaves the document as it is;
    otherwise the picked set is deleted. *)
Theorem handleRemove_spec (config : Config) (selected : string) (confirm : bool) :
  active_ok config ->
  In selected (choice_values (select_choices config)) ->
  active_ok (handleRemove config selected confirm) /\
  (selected = "__cancel__" \/ selected = "" \/ confirm = false ->
     handleRemove config selected confirm = config) /\
  (selected <> "__cancel__" -> selected <> "" -> confirm = true ->
     credentials (handleRemove config selected confirm) =
       delete_prop selected (credentials config)).
Proof.
  intros Hinv Hin. rewrite select_choices_values in Hin.
  assert (Hk : selected <> "__cancel__" -> In selected (object_keys (credentials config))).
  { intros Hc. apply in_app_or in Hin. destruct Hin as [H | [H | []]]; [exact H | congruence]. }
  unfold handleRemove, selectCredentials, getAllCredentials.
  destruct (Nat.eqb (length (object_keys (credentials config))) 0) eqn:Hl.
  - assert (Hc : selected = "__cancel__").
    { apply Nat.eqb_eq, length_zero_iff_nil in Hl. rewrite Hl in Hin.
      destruct Hin as [H | []]; auto. }
    split; [exact Hinv |]. split; [reflexivity |]. intros H; congruence.
  - destruct (String.eqb_spec selected "__cancel__") as [Hc | Hc].
    + split; [exact Hinv |]. split; [reflexivity |]. intros H; congruence.
    + destruct (String.eqb_spec selected "") as [He | He].
      * split; [exact Hinv |]. split; [reflexivity |]. intros _ H; congruence.
      * destruct confirm.
        -- split; [apply (StoreFacts.step_active_ok config (Remove selected) Hinv I) |].
           split; [intros [H | [H | H]]; congruence |].
           intros _ _ _. unfold removeCredentials.
           rewrite (truthy_get_prop_own _ _ (Hk Hc)). reflexivity.
        -- split; [exact Hinv |]. split; [reflexivity |]. intros _ _ H; discriminate.
Qed.

Lemma handleRemove_spec_witness :
  active_ok (mkConfig (Some "a") [("a", mkCredentials "https://a.example.com" "ta");
                                  ("b", mkCredentials "https://b.example.com" "tb")]) /\
  In "a" (choice_values (select_choices
     (mkConfig (Some "a") [("a", mkCredentials "https://a.example.com" "ta");
                           ("b", mkCredentials "https://b.example.com" "tb")]))) /\
  handleRemove (mkConfig (Some "a") [("a", mkCredentials "https://a.example.com" "ta");
                                     ("b", mkCredentials "https://b.example.com" "tb")]) "a" true =
    mkConfig (Some "b") [("b", mkCredentials "https://b.example.com" "tb")] /\
  active_ok (mkConfig (Some "b") [("b", mkCredentials "https://b.example.com" "tb")]).
Proof.
  assert (H1 : active_ok (mkConfig (Some "a") [("a", mkCredentials "https://a.example.com" "ta");
                                               ("b", mkCredentials "https://b.example.com" "tb")]))
    by (cbn; auto).
  assert (H2 : In "a" (choice_values (select_choices
                 (mkConfig (Some "a") [("a", mkCredentials "https://a.example.com" "ta");
                                       ("b", mkCredentials "https://b.example.com" "tb")]))))
    by (cbn; auto).
  split; [exact H1 |]. split; [exact H2 |]. split; [reflexivity |].
  exact (proj1 (handleRemove_spec _ "a" true H1 H2)).
Defined.

(** [handleUse()] keeps the credentials and the invariant; picking a saved
    name other than "__cancel__" and "" makes it active, and picking
    "Cancel" or "" changes nothing. *)
Theorem handleUse_spec (config : Config) (selected : string) :
  active_ok config ->
  In selected (choice_values (select_choices config)) ->
  active_ok (handleUse config selected) /\
  credentials (handleUse config selected) = credentials config /\
  (selected = "__cancel__" \/ selected = "" -> handleUse config selected = config) /\
  (selected <> "__cancel__" -> selected <> "" ->
     active (handleUse config selected) = Some selected).
Proof.
  intros Hinv Hin. rewrite select_choices_values in Hin.
  assert (Hk : selected <> "__cancel__" -> In selected (object_keys (credentials config))).
  { intros Hc. apply in_app_or in Hin. destruct Hin as [H | [H | []]]; [exact H | congruence]. }
  unfold handleUse, selectCredentials, getAllCredentials.
  destruct (Nat.eqb (length (object_keys (credentials config))) 0) eqn:Hl.
  - assert (Hc : selected = "__cancel__").
    { apply Nat.eqb_eq, length_zero_iff_nil in Hl. rewrite Hl in Hin.
      destruct Hin as [H | []]; auto. }
    split; [exact Hinv |]. split; [reflexivity |]. split; [reflexivity |]. intros H; congruence.
  - destruct (String.eqb_spec selected "__cancel__") as [Hc | Hc].
    + split; [exact Hinv |]. split; [reflexivity |]. split; [reflexivity |]. intros H; congruence.
    + destruct (String.eqb_spec selected "") as [He | He].
      * split; [exact Hinv |]. split; [reflexivity |]. split; [reflexivity |].
        intros _ H; congruence.
      * unfold setActive. rewrite (truthy_get_prop_own _ _ (Hk Hc)). simpl.
        split; [exact (Hk Hc) |]. split; [reflexivity |].
        split; [intros [H | H]; congruence | reflexivity].
Qed.

Lemma handleUse_spec_witness :
  active_ok (mkConfig (Some "a") [("a", mkCredentials "https://a.example.com" "ta");
                                  ("b", mkCredentials "https://b.example.com" "tb")]) /\
  In "b" (choice_values (select_choices
     (mkConfig (Some "a") [("a", mkCredentials "https://a.example.com" "ta");
                           ("b", mkCredentials "https://b.example.com" "tb")]))) /\
  active (handleUse (mkConfig (Some "a") [("a", mkCredentials "https://a.example.com" "ta");
                                          ("b", mkCredentials "https://b.example.com" "tb")]) "b") =
    Some "b".
Proof.
  assert (H1 : active_ok (mkConfig (Some "a") [("a", mkCredentials "https://a.example.com" "ta");
                                               ("b", mkCredentials "https://b.example.com" "tb")]))
    by (cbn; auto).
  assert (H2 : In "b" (choice_values (select_choices
                 (mkConfig (Some "a") [("a", mkCredentials "https://a.example.com" "ta");
                                       ("b", mkCredentials "https://b.example.com" "tb")]))))
    by (cbn; auto).
  split; [exact H1 |]. split; [exact H2 |].
  apply (handleUse_spec _ "b" H1 H2); discriminate.
Defined.

(** [handleAdd()]: a name [hasCredentials] reports (a stored name or any
    member of [Object.prototype], stored or not) is saved only after the
    overwrite question is answered yes; declining writes nothing.  A saved
    name other than "__proto__" is bound to the entered credentials, and
    "(set as active)" is printed exactly when it is active afterwards:
    when it is the only set, or it was already active. *)
Theorem handleAdd_spec (name : string) (creds : Credentials) (overwrite : bool)
    (config : Config) :
  let '(config', out) := handleAdd name creds overwrite config in
  ((In name (object_keys (credentials config)) \/ is_proto_member name = true) ->
     overwrite = false -> out = AddCancelled /\ config' = config) /\
  (out = AddCancelled -> config' = config) /\
  (name <> "__proto__" -> out <> AddCancelled ->
     own_lookup name (credentials config') = Some creds /\
     (out = AddSaved true <->
        length (object_keys (credentials config')) = 1 \/ active config = Some name)).
Proof.
  unfold handleAdd.
  destruct (hasCredentials name config && negb overwrite) eqn:Hc.
  - split; [auto |]. split; [auto |]. intros _ H; congruence.
  - split.
    { intros Hh Ho. apply (proj2 (hasCredentials_keys config name)) in Hh.
      rewrite Hh, Ho in Hc. discriminate. }
    split; [discriminate |]. intros Hp _.
    destruct (StoreFacts.addCredentials_spec config name creds Hp) as (Hl & _ & H1 & H2).
    split; [exact Hl |].
    unfold getActiveName.
    destruct (Nat.eq_dec (length (object_keys (credentials (addCredentials name creds config)))) 1)
      as [E | E].
    + rewrite (H1 E), String.eqb_refl. split; auto.
    + rewrite (H2 E). split.
      * intros H. right. destruct (active config) as [a |]; [| discriminate].
        injection H as H. apply String.eqb_eq in H. subst. reflexivity.
      * intros [H | H]; [contradiction | rewrite H, String.eqb_refl; reflexivity].
Qed.

(** Removing a set just added under a fresh name outside [Object.prototype]
    restores the document exactly (given the invariant), and reports true. *)
Theorem removeCredentials_after_add (config : Config) (name : string) (creds : Credentials) :
  active_ok config ->
  is_proto_member name = false ->
  ~ In name (object_keys (credentials config)) ->
  removeCredentials name (addCredentials name creds config) = (config, true).
Proof.
  intros Hinv Hp Hk.
  assert (Hpr : name <> "__proto__") by (intros E; rewrite E in Hp; discriminate).
  destruct config as [a cs]. unfold active_ok in Hinv. simpl in *.
  unfold addCredentials, removeCredentials. simpl.
  rewrite set_prop_nonproto by exact Hpr. rewrite put_own_fresh by exact Hk.
  assert (Hin : In name (object_keys (cs ++ [(name, creds)])%list))
    by (unfold object_keys; rewrite map_app; apply in_or_app; right; left; reflexivity).
  rewrite (truthy_get_prop_own _ _ Hin). simpl.
  rewrite delete_app_last by exact Hk.
  destruct cs as [| kv cs'].
  - simpl. destruct a as [a' |]; [destruct Hinv |].
    unfold active_is. simpl. rewrite String.eqb_refl. reflexivity.
  - assert (Hlen : Nat.eqb (length (object_keys ((kv :: cs') ++ [(name, creds)])%list)) 1 = false)
      by (unfold object_keys; rewrite map_app, length_app; simpl; apply Nat.eqb_neq; lia).
    rewrite Hlen. unfold active_is. simpl.
    destruct a as [a' |]; [| reflexivity].
    destruct (String.eqb_spec a' name) as [-> | Hne]; [contradiction | reflexivity].
Qed.

Lemma removeCredentials_after_add_witness :
  active_ok (mkConfig (Some "a") [("a", mkCredentials "https://a.example.com" "ta")]) /\
  is_proto_member "b" = false /\
  ~ In "b" (object_keys (credentials
      (mkConfig (Some "a") [("a", mkCredentials "https://a.example.com" "ta")]))) /\
  removeCredentials "b" (addCredentials "b" (mkCredentials "https://b.example.com" "tb")
    (mkConfig (Some "a") [("a", mkCredentials "https://a.example.com" "ta")])) =
  (mkConfig (Some "a") [("a", mkCredentials "https://a.example.com" "ta")], true).
Proof.
  assert (H1 : active_ok (mkConfig (Some "a") [("a", mkCredentials "https://a.example.com" "ta")]))
    by (cbn; auto).
  assert (H2 : is_proto_member "b" = false) by reflexivity.
  assert (H3 : ~ In "b" (object_keys (credentials
                 (mkConfig (Some "a") [("a", mkCredentials "https://a.example.com" "ta")]))))
    by (cbn; intros [H | []]; discriminate).
  split; [exact H1 |]. split; [exact H2 |]. split; [exact H3 |].
  exact (removeCredentials_after_add _ "b" (mkCredentials "https://b.example.com" "tb") H1 H2 H3).
Defined.

(** Trailing slashes on the URL do not matter: [validateCredentials] issues
    the same request and returns the same result for [url] and for [url]
    followed by any number of slashes. *)
Theorem validateCredentials_trailing_slashes (fetch : Request -> Exc Response)
    (name u t : string) (k : nat) :
  let u' := u ++ string_of_list_ascii (repeat "/"%char k) in
  request_for (mkCredentials u' t) = request_for (mkCredentials u t) /\
  validateCredentials fetch name (mkCredentials u' t) =
  validateCredentials fetch name (mkCredentials u t).
Proof.
  cbv zeta.
  assert (Hr : request_for (mkCredentials (u ++ string_of_list_ascii (repeat "/"%char k)) t) =
               request_for (mkCredentials u t))
    by (unfold request_for; simpl; rewrite strip_trailing_slashes_more; reflexivity).
  split; [exact Hr |]. unfold validateCredentials. rewrite Hr. reflexivity.
Qed.

End Extras.
